(** * Heart Disease Risk Predictor: the inference-time pipeline of [app.py]

    A shallow embedding of the Streamlit script [src/app.py] and the
    properties of its risk-assessment pipeline.

    Conventions of the embedding:
    - Python [str] is [string], Python [int] is [Z].
    - Python [float] values (BMI, probabilities, scaled features, the
      risk percentage) are idealised as exact rationals [Q], with exact
      arithmetic; the result of [round] is kept in lowest terms.  What
      depends on binary rounding is outside the model.
    - The script's effects are the Streamlit calls it makes, in order, and
      the Python exceptions it raises: a small output-and-exception monad
      [St] records both.
    - The two pickled artifacts are opaque to the script: the classifier is
      a pair of total functions on the feature frame, the scaler a table of
      per-column bounds.
    - The text a Python float is formatted to inside an f-string is produced
      by the interpreter, not by the script: it is the parameter
      [float_str] of the model. *)

From Stdlib Require Import ZArith QArith Qabs Qminmax Qround Qreduction Bool List String Ascii
  DecimalString Lia Lqa.
Import ListNotations.

Local Open Scope Z_scope.
Local Open Scope Q_scope.
Local Open Scope string_scope.
Local Open Scope list_scope.

(** ** Python values and built-ins used by the script *)

(** Exceptions the script can meet.  [StopException] is what [st.stop()]
    raises; it derives from [BaseException], so [except Exception] does not
    catch it. *)
Inductive exn : Type :=
| ValueError (msg : string)
| KeyError (msg : string)
| StreamlitAPIException (msg : string)
| Exception (msg : string)
| StopException.

(** [isinstance(e, Exception)] *)
Definition is_Exception (e : exn) : bool :=
  match e with
  | StopException => false
  | _ => true
  end.

(** [str(e)] *)
Definition str_exn (e : exn) : string :=
  match e with
  | ValueError msg | KeyError msg | StreamlitAPIException msg | Exception msg => msg
  | StopException => ""
  end.

Definition nl : string := String (ascii_of_nat 10) EmptyString.

(** [repr(s)] of a [str]: single quotes, or double quotes when the text
    holds a single quote and no double quote; the quote in use and the
    backslash are escaped, tab, line feed and carriage return are written
    [\t], [\n], [\r], and the other ASCII control characters [\xNN].
    Bytes above 127 are the UTF-8 of characters taken to be printable. *)
Fixpoint contains (c : ascii) (s : string) : bool :=
  match s with
  | EmptyString => false
  | String a s' => Ascii.eqb a c || contains c s'
  end.

Definition double_quote : ascii := ascii_of_nat 34.

Definition hex_digit (n : nat) : string :=
  String.substring n 1 "0123456789abcdef".

Definition repr_char (quote c : ascii) : string :=
  let n := nat_of_ascii c in
  if Ascii.eqb c quote || Ascii.eqb c "\"%char then String "\"%char (String c "")
  else if Nat.eqb n 9 then "\t"
  else if Nat.eqb n 10 then "\n"
  else if Nat.eqb n 13 then "\r"
  else if Nat.ltb n 32 || Nat.eqb n 127
       then "\x" ++ hex_digit (Nat.div n 16) ++ hex_digit (Nat.modulo n 16)
  else String c "".

Fixpoint repr_chars (quote : ascii) (s : string) : string :=
  match s with
  | EmptyString => EmptyString
  | String c s' => repr_char quote c ++ repr_chars quote s'
  end.

Definition py_repr (s : string) : string :=
  let quote :=
    if contains "'"%char s && negb (contains double_quote s)
    then double_quote else "'"%char in
  String quote (repr_chars quote s ++ String quote "").

(** [l.index(x)]: position of the first element equal to [x], or the
    [ValueError] whose message is [repr(x)] followed by " is not in
    list". *)
Fixpoint index (l : list string) (x : string) : exn + Z :=
  match l with
  | [] => inl (ValueError (py_repr x ++ " is not in list"))
  | y :: l' =>
      if String.eqb y x then inr 0%Z
      else match index l' x with
           | inr i => inr (i + 1)%Z
           | inl e => inl e
           end
  end.

(** [x in l] for a list of strings *)
Definition py_in (x : string) (l : list string) : bool :=
  existsb (fun y => String.eqb y x) l.

(** Round half to even, to the nearest integer. *)
Definition round_half_even (x : Q) : Z :=
  let f := Qfloor x in
  match Qcompare (x - inject_Z f) (1 # 2) with
  | Lt => f
  | Gt => (f + 1)%Z
  | Eq => if Z.even f then f else (f + 1)%Z
  end.

(** [round(x, ndigits)] for [ndigits >= 0], on idealised floats: the exact
    value is rounded, half to even.  The float64 result of the program can
    differ from it by one unit of the last decimal when [x * 10^ndigits]
    is within rounding error of a tie. *)
Definition round (x : Q) (ndigits : nat) : Q :=
  let scale := inject_Z (10 ^ Z.of_nat ndigits) in
  Qred (inject_Z (round_half_even (x * scale)) / scale).

(** ** Streamlit output *)

(** One constructor per Streamlit call of the script that draws something;
    the argument is the text (or value) passed.  Column placement
    ([st.columns], [with col:]) is layout only and is not recorded. *)
Inductive element : Type :=
| st_set_page_config (page_title : string)
| st_title (body : string)
| st_markdown (body : string)
| st_form (key : string)
| st_header (body : string)
| st_subheader (body : string)
| st_selectbox (label : string) (options : list string)
| st_radio (label : string) (options : list string)
| st_slider (label : string)
| st_form_submit_button (label : string)
| st_error (body : string)
| st_success (body : string)
| st_progress (value : Q)
| st_warning (body : string)
| st_info (body : string)
| st_write (body : string).

(** A script fragment: given what has been drawn so far, it either returns
    a value or raises, and in both cases leaves what it has drawn. *)
Definition St (A : Type) : Type := list element -> (exn + A) * list element.

Definition ret {A} (a : A) : St A := fun out => (inr a, out).

Definition bind {A B} (m : St A) (k : A -> St B) : St B :=
  fun out =>
    match m out with
    | (inr a, out') => k a out'
    | (inl e, out') => (inl e, out')
    end.

Definition raise {A} (e : exn) : St A := fun out => (inl e, out).

Definition emit (e : element) : St unit := fun out => (inr tt, out ++ [e]).

(** A Python expression that may raise, evaluated inside the script. *)
Definition lift {A} (r : exn + A) : St A :=
  match r with
  | inr a => ret a
  | inl e => raise e
  end.

(** [try: body  except Exception as e: handler e] *)
Definition try_except {A} (body : St A) (handler : exn -> St A) : St A :=
  fun out =>
    match body out with
    | (inl e, out') => if is_Exception e then handler e out' else (inl e, out')
    | r => r
    end.

Declare Scope st_scope.
Delimit Scope st_scope with st.
Notation "x <- m ;; k" := (bind m (fun x => k))
  (at level 61, m at next level, right associativity) : st_scope.
Notation "m ;; k" := (bind m (fun _ => k))
  (at level 61, right associativity) : st_scope.
Local Open Scope st_scope.

(** [st.stop()] *)
Definition st_stop {A} : St A := raise StopException.

(** [math.isclose(a, b, rel_tol=1e-9, abs_tol=1e-9)] *)
Definition isclose (a b : Q) : bool :=
  Qle_bool (Qabs (a - b))
    (Qmax ((1 # 1000000000) * Qmax (Qabs a) (Qabs b)) (1 # 1000000000)).

(** The test [st.progress] applies to a float: between 0.0 and 1.0, or
    close to one of the two bounds. *)
Definition check_float_between (value : Q) : bool :=
  (Qle_bool 0 value && Qle_bool value 1) || isclose value 0 || isclose value 1.

(** ["%f" % x]: six decimal places. *)
Definition format_f (x : Q) : string :=
  let k := round_half_even (Qabs x * 1000000) in
  (if Qle_bool 0 x then "" else "-")
  ++ NilZero.string_of_int (Z.to_int (k / 1000000))
  ++ "."
  ++ String.substring 1 6 (NilZero.string_of_int (Z.to_int (1000000 + k mod 1000000))).

(** [st.progress(value)] for a float: the bar is drawn when the value
    passes the test, and [StreamlitAPIException] is raised otherwise. *)
Definition progress (value : Q) : St unit :=
  if check_float_between value then emit (st_progress value)
  else raise (StreamlitAPIException
                ("Progress Value has invalid value [0.0, 1.0]: " ++ format_f value)).

(** ** Data model *)

(** The option lists of the script (lines 32-39). *)
Definition gen_health_options : list string :=
  ["Poor"; "Fair"; "Good"; "Very good"; "Excellent"].

Definition diabetic_options : list string :=
  ["No"; "Yes"; "No, borderline diabetes"; "Yes (during pregnancy)"].

Definition age_categories : list string :=
  ["18-24"; "25-29"; "30-34"; "35-39"; "40-44";
   "45-49"; "50-54"; "55-59"; "60-64"; "65-69";
   "70-74"; "75-79"; "80 or older"].

(** The values of the sixteen form widgets when the form is submitted,
    under the names of the script's variables. *)
Record PatientInput : Type := {
  age_category : string;
  sex : string;
  bmi : Q;
  physical_health : Z;
  mental_health : Z;
  sleep_time : Z;
  stroke : string;
  diff_walking : string;
  asthma : string;
  kidney_disease : string;
  skin_cancer : string;
  diabetic : string;
  gen_health : string;
  smoking : string;
  alcohol : string;
  physical_activity : string
}.

Definition yes_no : list string := ["No"; "Yes"].

(** What the widgets can return: an entry of the option list for select
    boxes and radio buttons, a value between the bounds for sliders. *)
Definition in_domain (p : PatientInput) : bool :=
  py_in (age_category p) age_categories
  && py_in (sex p) ["Female"; "Male"]
  && Qle_bool 10 (bmi p) && Qle_bool (bmi p) 50
  && (0 <=? physical_health p)%Z && (physical_health p <=? 30)%Z
  && (0 <=? mental_health p)%Z && (mental_health p <=? 30)%Z
  && (1 <=? sleep_time p)%Z && (sleep_time p <=? 12)%Z
  && py_in (stroke p) yes_no
  && py_in (diff_walking p) yes_no
  && py_in (asthma p) yes_no
  && py_in (kidney_disease p) yes_no
  && py_in (skin_cancer p) yes_no
  && py_in (diabetic p) diabetic_options
  && py_in (gen_health p) gen_health_options
  && py_in (smoking p) yes_no
  && py_in (alcohol p) yes_no
  && py_in (physical_activity p) yes_no.

(** A cell of the one-row data frame: an integer or a float column. *)
Inductive cell : Type :=
| VInt (z : Z)
| VFloat (x : Q).

(** The one-row [pd.DataFrame]: its columns, in order, with the value of
    the single row. *)
Definition DataFrame : Type := list (string * cell).

Definition columns (df : DataFrame) : list string := map fst df.

(** [df[name]] of the single row *)
Fixpoint df_get (df : DataFrame) (name : string) : exn + cell :=
  match df with
  | [] => inl (KeyError name)
  | (c, v) :: df' => if String.eqb c name then inr v else df_get df' name
  end.

(** [df[names]]: the sub-frame of the named columns, in the order asked. *)
Fixpoint df_select (df : DataFrame) (names : list string) : exn + DataFrame :=
  match names with
  | [] => inr []
  | n :: names' =>
      match df_get df n with
      | inl e => inl e
      | inr v =>
          match df_select df names' with
          | inl e => inl e
          | inr sub => inr ((n, v) :: sub)
          end
      end
  end.

(** [df[name] = v] for an existing column: the column keeps its place. *)
Definition df_set (df : DataFrame) (name : string) (v : cell) : DataFrame :=
  map (fun cv => if String.eqb (fst cv) name then (fst cv, v) else cv) df.

(** [df[names] = values] with a row of floats: the columns are assigned
    one by one; the shapes must agree. *)
Fixpoint df_assign (df : DataFrame) (names : list string) (values : list Q)
  : exn + DataFrame :=
  match names, values with
  | [], [] => inr df
  | n :: names', x :: values' => df_assign (df_set df n (VFloat x)) names' values'
  | _, _ => inl (ValueError "Columns must be same length as key")
  end.

(** The value of a cell as a float (the conversion of a frame to an
    array of floats). *)
Definition to_float (v : cell) : Q :=
  match v with
  | VInt z => inject_Z z
  | VFloat x => x
  end.

(** ** The two artifacts *)

(** The trained classifier, opaque to the script: [model.predict(df)[0]]
    and [model.predict_proba(df)[0][1]]. *)
Record Classifier : Type := {
  predict : DataFrame -> Z;
  predict_proba : DataFrame -> Q
}.

(** Modelled from the spec: the fitted scaler [minmax_scaler.pkl] is not
    part of the sources.  Its parameters are the bounds fixed at training
    time, per scaled field, and [transform] is min-max normalisation,
    [(x - min) / (max - min)] per field. *)
Record ScalingParameters : Type := {
  data_min : string -> Q;
  data_max : string -> Q
}.

(** Modelled from the spec: min-max normalisation of one value of the field
    [name], [(x - min) / (max - min)]. *)
Definition minmax (s : ScalingParameters) (name : string) (x : Q) : Q :=
  (x - data_min s name) / (data_max s name - data_min s name).

(** Modelled from the spec: [scaler.transform(X)] on a one-row frame, the
    row of the scaled values of its columns. *)
Definition transform (s : ScalingParameters) (X : DataFrame) : list Q :=
  map (fun cv => minmax s (fst cv) (to_float (snd cv))) X.

(** What [joblib.load] finds for the two file names: the unpickled object,
    or the message of the exception raised. *)
Record Artifacts : Type := {
  heart_disease_model_pkl : string + Classifier;
  minmax_scaler_pkl : string + ScalingParameters
}.

Definition joblib_load {A} (file : string + A) : St A :=
  match file with
  | inr a => ret a
  | inl msg => raise (Exception msg)
  end.

(** ** The script *)

Section Script.

(** The text of a float inside an f-string, [format(x, '')]. *)
Variable float_str : Q -> string.

(** Lines 86-107: the dictionary [input_data], its sixteen entries evaluated
    in order, and the frame built from it.  Only the three [.index] calls
    can raise. *)
Definition input_df (p : PatientInput) : St DataFrame :=
  age_ix <- lift (index age_categories (age_category p)) ;;
  diabetic_ix <- lift (index diabetic_options (diabetic p)) ;;
  gen_health_ix <- lift (index gen_health_options (gen_health p)) ;;
  ret [ ("BMI", VFloat (bmi p));
        ("Smoking", VInt (if smoking p =? "Yes" then 1 else 0));
        ("AlcoholDrinking", VInt (if alcohol p =? "Yes" then 1 else 0));
        ("Stroke", VInt (if stroke p =? "Yes" then 1 else 0));
        ("PhysicalHealth", VInt (physical_health p));
        ("MentalHealth", VInt (mental_health p));
        ("DiffWalking", VInt (if diff_walking p =? "Yes" then 1 else 0));
        ("Sex", VInt (if sex p =? "Male" then 1 else 0));
        ("AgeCategory", VInt age_ix);
        ("Diabetic", VInt diabetic_ix);
        ("PhysicalActivity", VInt (if physical_activity p =? "Yes" then 1 else 0));
        ("GenHealth", VInt gen_health_ix);
        ("SleepTime", VInt (sleep_time p));
        ("Asthma", VInt (if asthma p =? "Yes" then 1 else 0));
        ("KidneyDisease", VInt (if kidney_disease p =? "Yes" then 1 else 0));
        ("SkinCancer", VInt (if skin_cancer p =? "Yes" then 1 else 0)) ].

(** Lines 110-113. *)
Definition features_to_scale : list string :=
  ["BMI"; "PhysicalHealth"; "MentalHealth"; "SleepTime"].

Definition scale (scaler : ScalingParameters) (df : DataFrame) : St DataFrame :=
  X <- lift (df_select df features_to_scale) ;;
  lift (df_assign df features_to_scale (transform scaler X)).

(** Line 120. *)
Definition risk_percentage (probability : Q) : Q :=
  round (probability * 100) 1.

(** Lines 128-131. *)
Definition at_risk_text : string := "**At Risk of Heart Disease**".
Definition not_at_risk_text : string := "**Not At Risk of Heart Disease**".

Definition show_prediction (prediction : Z) : St unit :=
  if (prediction =? 1)%Z then emit (st_error at_risk_text)
  else emit (st_success not_at_risk_text).

(** Lines 143-159: the two guidance texts, as the triple-quoted literals
    hold them (a line break, then lines indented by twelve spaces). *)
Definition elevated_guidance : string :=
  nl ++ "            **This patient shows elevated risk for heart disease.**"
  ++ nl ++ "            Recommended actions:"
  ++ nl ++ "            - Schedule cardiology consultation within 2 weeks"
  ++ nl ++ "            - Order ECG and lipid profile tests"
  ++ nl ++ "            - Provide heart health education materials"
  ++ nl ++ "            - Schedule follow-up appointment in 1 month"
  ++ nl ++ "            ".

Definition low_guidance : string :=
  nl ++ "            **This patient shows low risk for heart disease.**"
  ++ nl ++ "            Recommended actions:"
  ++ nl ++ "            - Reinforce heart-healthy lifestyle habits"
  ++ nl ++ "            - Provide preventive care education"
  ++ nl ++ "            - Schedule annual wellness check"
  ++ nl ++ "            ".

Definition show_guidance (probability : Q) : St unit :=
  if Qle_bool 0.5 probability then emit (st_warning elevated_guidance)
  else emit (st_info low_guidance).

(** Lines 163-173: the list [risk_factors], grown by five conditional
    appends. *)
Definition risk_factors (p : PatientInput) : list string :=
  let risk_factors := [] in
  let risk_factors :=
    if smoking p =? "Yes" then risk_factors ++ ["Smoking"] else risk_factors in
  let risk_factors :=
    if Qle_bool 30 (bmi p)
    then risk_factors ++ [("Obesity (BMI: " ++ float_str (bmi p) ++ ")")%string]
    else risk_factors in
  let risk_factors :=
    if (15 <=? physical_health p)%Z
    then risk_factors ++ ["Frequent physical health issues"]
    else risk_factors in
  let risk_factors :=
    if py_in (age_category p)
         ["55-59"; "60-64"; "65-69"; "70-74"; "75-79"; "80 or older"]
    then risk_factors ++ [("Age (" ++ age_category p ++ ")")%string]
    else risk_factors in
  let risk_factors :=
    if negb (diabetic p =? "No") then risk_factors ++ ["Diabetes"]
    else risk_factors in
  risk_factors.

(** Lines 175-178. *)
Definition show_risk_factors (risk_factors : list string) : St unit :=
  match risk_factors with
  | _ :: _ => emit (st_write ("Identified risk factors: " ++ concat ", " risk_factors))
  | [] => emit (st_write "No major risk factors identified")
  end.

(** Lines 84-179: the body of the [try]. *)
Definition assessment (model : Classifier) (scaler : ScalingParameters)
  (p : PatientInput) : St unit :=
  input_df <- input_df p ;;
  input_df <- scale scaler input_df ;;
  let prediction := predict model input_df in
  let probability := predict_proba model input_df in
  let risk_percentage := risk_percentage probability in
  emit (st_header "Risk Assessment Results") ;;
  emit (st_subheader "Clinical Prediction") ;;
  show_prediction prediction ;;
  emit (st_subheader "Model Confidence") ;;
  emit (st_markdown ("<h1 style='text-align: center;'>"
                     ++ float_str risk_percentage ++ "%</h1>")) ;;
  progress probability ;;
  emit (st_subheader "Clinical Guidance") ;;
  show_guidance probability ;;
  emit (st_subheader "Key Risk Factors") ;;
  show_risk_factors (risk_factors p).

Definition assessment_failed_text : string :=
  "Assessment failed: Please check all fields are complete".

(** Lines 83-181: what runs when the form has been submitted. *)
Definition on_submit (model : Classifier) (scaler : ScalingParameters)
  (p : PatientInput) : St unit :=
  try_except (assessment model scaler p)
    (fun e => emit (st_error assessment_failed_text)).

(** Lines 7-12. *)
Definition load_artifacts (files : Artifacts) : St (Classifier * ScalingParameters) :=
  try_except
    (model <- joblib_load (heart_disease_model_pkl files) ;;
     scaler <- joblib_load (minmax_scaler_pkl files) ;;
     ret (model, scaler))
    (fun e =>
       emit (st_error ("Error loading model: " ++ str_exn e)) ;;
       st_stop).

(** Lines 22-28. *)
Definition description : string :=
  nl ++ "**Clinical Decision Support Tool**  "
  ++ nl ++ "Predicts heart disease risk based on patient health metrics.  "
  ++ nl ++ "For nursing staff use only."
  ++ nl ++ "Note: This tool is for educational purposes and should not replace clinical judgment. "
  ++ nl.

(** Lines 42-81: the form.  The values the widgets return are the fields of
    the [PatientInput]. *)
Definition form : St unit :=
  emit (st_form "clinical_assessment_form") ;;
  emit (st_header "Patient Health Assessment") ;;
  emit (st_subheader "Demographics") ;;
  emit (st_selectbox "Age Group" age_categories) ;;
  emit (st_radio "Sex" ["Female"; "Male"]) ;;
  emit (st_subheader "Vital Signs & Metrics") ;;
  emit (st_slider "BMI") ;;
  emit (st_slider "Physical health issues (past 30 days)") ;;
  emit (st_slider "Mental health issues (past 30 days)") ;;
  emit (st_slider "Avg. daily sleep (hours)") ;;
  emit (st_subheader "Health History") ;;
  emit (st_radio "History of stroke?" yes_no) ;;
  emit (st_radio "Difficulty walking/climbing stairs?" yes_no) ;;
  emit (st_radio "Asthma diagnosis?" yes_no) ;;
  emit (st_radio "Kidney disease?" yes_no) ;;
  emit (st_radio "Skin cancer?" yes_no) ;;
  emit (st_selectbox "Diabetes status" diabetic_options) ;;
  emit (st_selectbox "General health rating" gen_health_options) ;;
  emit (st_subheader "Lifestyle Factors") ;;
  emit (st_radio "Current smoker?" yes_no) ;;
  emit (st_radio "Heavy alcohol consumption?" yes_no) ;;
  emit (st_radio "Regular physical activity?" yes_no) ;;
  emit (st_form_submit_button "Assess Heart Disease Risk").

(** The whole script, run top to bottom: [p] holds the widget values and
    [submitted] tells whether the submit button was pressed. *)
Definition app (files : Artifacts) (p : PatientInput) (submitted : bool) : St unit :=
  artifacts <- load_artifacts files ;;
  let model := fst artifacts in
  let scaler := snd artifacts in
  emit (st_set_page_config "Heart Disease Risk Predictor") ;;
  emit (st_title "❤️ Heart Disease Risk Assessment") ;;
  emit (st_markdown description) ;;
  form ;;
  if submitted then on_submit model scaler p else ret tt.

(** What one run of the script draws on an empty page. *)
Definition run (files : Artifacts) (p : PatientInput) (submitted : bool)
  : list element :=
  snd (app files p submitted []).

End Script.

(** ** Views of the pipeline used to state its properties *)

(** The frame handed to the classifier: assembled, then scaled. *)
Definition features (scaler : ScalingParameters) (p : PatientInput) : exn + DataFrame :=
  fst ((df <- input_df p ;; scale scaler df) []).

(** The canonical order of the sixteen feature names. *)
Definition feature_names : list string :=
  ["BMI"; "Smoking"; "AlcoholDrinking"; "Stroke"; "PhysicalHealth";
   "MentalHealth"; "DiffWalking"; "Sex"; "AgeCategory"; "Diabetic";
   "PhysicalActivity"; "GenHealth"; "SleepTime"; "Asthma"; "KidneyDisease";
   "SkinCancer"].


Definition binary_names : list string :=
  ["Smoking"; "AlcoholDrinking"; "Stroke"; "DiffWalking"; "PhysicalActivity";
   "Asthma"; "KidneyDisease"; "SkinCancer"; "Sex"].

(** [i] is the zero-based position of [x] in [labels]. *)
Definition position (labels : list string) (x : string) (i : Z) : Prop :=
  (0 <= i)%Z /\ nth_error labels (Z.to_nat i) = Some x.

(** The encodings of the two-valued answers: yes=1, no=0; male=1, female=0. *)
Definition yes_no_code (answer : string) (code : Z) : Prop :=
  (answer = "Yes" /\ code = 1%Z) \/ (answer = "No" /\ code = 0%Z).

Definition sex_code (answer : string) (code : Z) : Prop :=
  (answer = "Male" /\ code = 1%Z) \/ (answer = "Female" /\ code = 0%Z).

(** The two verdicts and the two guidance tiers, and how the script shows
    each. *)
Inductive Verdict : Type := AtRisk | NotAtRisk.

Inductive Tier : Type := Elevated | Low.

Definition verdict_element (v : Verdict) : element :=
  match v with
  | AtRisk => st_error at_risk_text
  | NotAtRisk => st_success not_at_risk_text
  end.

Definition guidance_element (t : Tier) : element :=
  match t with
  | Elevated => st_warning elevated_guidance
  | Low => st_info low_guidance
  end.

(** The five risk-factor rules in their fixed order: condition and flag. *)
Definition flag_rules (float_str : Q -> string) (p : PatientInput)
  : list (bool * string) :=
  [ (smoking p =? "Yes", "Smoking");
    (Qle_bool 30 (bmi p), "Obesity (BMI: " ++ float_str (bmi p) ++ ")");
    ((15 <=? physical_health p)%Z, "Frequent physical health issues");
    (py_in (age_category p)
       ["55-59"; "60-64"; "65-69"; "70-74"; "75-79"; "80 or older"],
     "Age (" ++ age_category p ++ ")");
    (negb (diabetic p =? "No"), "Diabetes") ]%string.

(** The flags of the rules that apply, in rule order. *)
Definition applicable_flags (float_str : Q -> string) (p : PatientInput)
  : list string :=
  map snd (filter fst (flag_rules float_str p)).

(** What is drawn below the "Key Risk Factors" heading. *)
Fixpoint risk_summary (out : list element) : list element :=
  match out with
  | [] => []
  | st_subheader "Key Risk Factors" :: rest => rest
  | _ :: rest => risk_summary rest
  end.

(** The first categorical answer, in assembly order, that is not in its
    label list: the name of its feature and the answer. *)
Definition unknown_category (p : PatientInput) : option (string * string) :=
  if negb (py_in (age_category p) age_categories)
  then Some ("AgeCategory", age_category p)
  else if negb (py_in (diabetic p) diabetic_options)
  then Some ("Diabetic", diabetic p)
  else if negb (py_in (gen_health p) gen_health_options)
  then Some ("GenHealth", gen_health p)
  else None.

(** The message of the first artifact that fails to load, if any. *)
Definition load_failure (files : Artifacts) : option string :=
  match heart_disease_model_pkl files with
  | inl msg => Some msg
  | inr _ =>
      match minmax_scaler_pkl files with
      | inl msg => Some msg
      | inr _ => None
      end
  end.

(** A session: the script is run again, top to bottom, for every
    interaction, and each run loads the files as they are at that time. *)
Definition session (float_str : Q -> string)
  (runs : list (Artifacts * PatientInput * bool)) : list (list element) :=
  map (fun r => run float_str (fst (fst r)) (snd (fst r)) (snd r)) runs.

(** What only a served assessment draws: a verdict or a guidance text. *)
Definition is_assessment (e : element) : bool :=
  match e with
  | st_success _ | st_warning _ | st_info _ | st_write _ => true
  | _ => false
  end.

(** Once a run has failed to load an artifact, no run of the session draws
    an assessment. *)
Definition refuses_ever_after (float_str : Q -> string) : Prop :=
  forall files p submitted later,
    load_failure files <> None ->
    Forall (fun drawn => forallb (fun e => negb (is_assessment e)) drawn = true)
      (session float_str ((files, p, submitted) :: later)).

(** ** Fixtures *)

(** The text of a non-negative float with one decimal place. *)
Definition tenths_str (x : Q) : string :=
  let t := Qfloor (x * 10) in
  (NilZero.string_of_int (Z.to_int (t / 10)) ++ "."
   ++ NilZero.string_of_int (Z.to_int (t mod 10)))%string.

(** A deterministic classifier stub. *)
Definition stub (class : Z) (probability : Q) : Classifier :=
  {| predict := fun _ => class; predict_proba := fun _ => probability |}.

Definition test_scaler : ScalingParameters :=
  {| data_min := fun name => if name =? "BMI" then 12 else 0;
     data_max := fun name => if name =? "BMI" then 95 else
                             if name =? "SleepTime" then 24 else 30 |}.

(** A scaler whose bounds are 0 and 1 for every field. *)
Definition unit_scaler : ScalingParameters :=
  {| data_min := fun _ => 0; data_max := fun _ => 1 |}.

Definition patient_all_flags : PatientInput :=
  {| age_category := "60-64"; sex := "Male"; bmi := 32.0;
     physical_health := 20; mental_health := 3; sleep_time := 7;
     stroke := "No"; diff_walking := "No"; asthma := "No";
     kidney_disease := "No"; skin_cancer := "No"; diabetic := "Yes";
     gen_health := "Good"; smoking := "Yes"; alcohol := "No";
     physical_activity := "Yes" |}.

Definition patient_no_flags : PatientInput :=
  {| age_category := "30-34"; sex := "Female"; bmi := 22.5;
     physical_health := 0; mental_health := 0; sleep_time := 8;
     stroke := "No"; diff_walking := "No"; asthma := "No";
     kidney_disease := "No"; skin_cancer := "No"; diabetic := "No";
     gen_health := "Excellent"; smoking := "No"; alcohol := "No";
     physical_activity := "Yes" |}.

Definition files_no_model : Artifacts :=
  {| heart_disease_model_pkl :=
       inl "[Errno 2] No such file or directory: 'heart_disease_model.pkl'";
     minmax_scaler_pkl := inr test_scaler |}.

Definition files_loaded : Artifacts :=
  {| heart_disease_model_pkl := inr (stub 1 0.82);
     minmax_scaler_pkl := inr test_scaler |}.

(** The assembled row for given category positions, and the same row after
    scaling. *)
Definition row (p : PatientInput) (age_ix diabetic_ix gen_health_ix : Z) : DataFrame :=
  [ ("BMI", VFloat (bmi p));
    ("Smoking", VInt (if smoking p =? "Yes" then 1 else 0));
    ("AlcoholDrinking", VInt (if alcohol p =? "Yes" then 1 else 0));
    ("Stroke", VInt (if stroke p =? "Yes" then 1 else 0));
    ("PhysicalHealth", VInt (physical_health p));
    ("MentalHealth", VInt (mental_health p));
    ("DiffWalking", VInt (if diff_walking p =? "Yes" then 1 else 0));
    ("Sex", VInt (if sex p =? "Male" then 1 else 0));
    ("AgeCategory", VInt age_ix);
    ("Diabetic", VInt diabetic_ix);
    ("PhysicalActivity", VInt (if physical_activity p =? "Yes" then 1 else 0));
    ("GenHealth", VInt gen_health_ix);
    ("SleepTime", VInt (sleep_time p));
    ("Asthma", VInt (if asthma p =? "Yes" then 1 else 0));
    ("KidneyDisease", VInt (if kidney_disease p =? "Yes" then 1 else 0));
    ("SkinCancer", VInt (if skin_cancer p =? "Yes" then 1 else 0)) ].

Definition scaled_row (scaler : ScalingParameters) (p : PatientInput)
  (age_ix diabetic_ix gen_health_ix : Z) : DataFrame :=
  [ ("BMI", VFloat (minmax scaler "BMI" (bmi p)));
    ("Smoking", VInt (if smoking p =? "Yes" then 1 else 0));
    ("AlcoholDrinking", VInt (if alcohol p =? "Yes" then 1 else 0));
    ("Stroke", VInt (if stroke p =? "Yes" then 1 else 0));
    ("PhysicalHealth", VFloat (minmax scaler "PhysicalHealth" (inject_Z (physical_health p))));
    ("MentalHealth", VFloat (minmax scaler "MentalHealth" (inject_Z (mental_health p))));
    ("DiffWalking", VInt (if diff_walking p =? "Yes" then 1 else 0));
    ("Sex", VInt (if sex p =? "Male" then 1 else 0));
    ("AgeCategory", VInt age_ix);
    ("Diabetic", VInt diabetic_ix);
    ("PhysicalActivity", VInt (if physical_activity p =? "Yes" then 1 else 0));
    ("GenHealth", VInt gen_health_ix);
    ("SleepTime", VFloat (minmax scaler "SleepTime" (inject_Z (sleep_time p))));
    ("Asthma", VInt (if asthma p =? "Yes" then 1 else 0));
    ("KidneyDisease", VInt (if kidney_disease p =? "Yes" then 1 else 0));
    ("SkinCancer", VInt (if skin_cancer p =? "Yes" then 1 else 0)) ].

(** The elements of a successful assessment. *)
Definition verdict_of (prediction : Z) : Verdict :=
  if (prediction =? 1)%Z then AtRisk else NotAtRisk.

Definition tier_of (probability : Q) : Tier :=
  if Qle_bool 0.5 probability then Elevated else Low.

Definition summary_text (flags : list string) : string :=
  match flags with
  | [] => "No major risk factors identified"
  | _ :: _ => "Identified risk factors: " ++ concat ", " flags
  end.

Definition assessment_elements (float_str : Q -> string) (p : PatientInput)
  (prediction : Z) (probability : Q) : list element :=
  [ st_header "Risk Assessment Results";
    st_subheader "Clinical Prediction";
    verdict_element (verdict_of prediction);
    st_subheader "Model Confidence";
    st_markdown ("<h1 style='text-align: center;'>"
                 ++ float_str (risk_percentage probability) ++ "%</h1>");
    st_progress probability;
    st_subheader "Clinical Guidance";
    guidance_element (tier_of probability);
    st_subheader "Key Risk Factors";
    st_write (summary_text (risk_factors float_str p)) ].

(** The domain of the widgets, fact by fact. *)
Record domain_facts (p : PatientInput) : Prop := {
  dom_age : py_in (age_category p) age_categories = true;
  dom_sex : sex p = "Female" \/ sex p = "Male";
  dom_bmi : 10 <= bmi p <= 50;
  dom_physical_health : (0 <= physical_health p <= 30)%Z;
  dom_mental_health : (0 <= mental_health p <= 30)%Z;
  dom_sleep_time : (1 <= sleep_time p <= 12)%Z;
  dom_stroke : stroke p = "No" \/ stroke p = "Yes";
  dom_diff_walking : diff_walking p = "No" \/ diff_walking p = "Yes";
  dom_asthma : asthma p = "No" \/ asthma p = "Yes";
  dom_kidney_disease : kidney_disease p = "No" \/ kidney_disease p = "Yes";
  dom_skin_cancer : skin_cancer p = "No" \/ skin_cancer p = "Yes";
  dom_diabetic : py_in (diabetic p) diabetic_options = true;
  dom_gen_health : py_in (gen_health p) gen_health_options = true;
  dom_smoking : smoking p = "No" \/ smoking p = "Yes";
  dom_alcohol : alcohol p = "No" \/ alcohol p = "Yes";
  dom_physical_activity : physical_activity p = "No" \/ physical_activity p = "Yes"
}.

(** Reading a frame: the cell of a column, and an integer cell described by
    a relation on its code. *)
Definition slot (df : DataFrame) (name : string) (v : cell) : Prop :=
  df_get df name = inr v.

Definition coded (df : DataFrame) (name : string) (code : Z -> Prop) : Prop :=
  exists c : Z, df_get df name = inr (VInt c) /\ code c.

(** Every categorical column holds an integer code of its range. *)
Definition categorical_in_range (df : DataFrame) : Prop :=
  (forall name, In name binary_names ->
     slot df name (VInt 0) \/ slot df name (VInt 1))
  /\ coded df "AgeCategory" (fun a => 0 <= a <= 12)%Z
  /\ coded df "Diabetic" (fun d => 0 <= d <= 3)%Z
  /\ coded df "GenHealth" (fun g => 0 <= g <= 4)%Z.

(** ** Views used for the further properties *)

(** The probability passes the test of [st.progress]. *)
Definition probability_ok (probability : Q) : bool :=
  check_float_between probability.

(** What the handler has drawn when [st.progress] raises: the heading, the
    verdict and the confidence, then the failure sentence. *)
Definition interrupted_elements (float_str : Q -> string) (prediction : Z)
  (probability : Q) : list element :=
  [ st_header "Risk Assessment Results";
    st_subheader "Clinical Prediction";
    verdict_element (verdict_of prediction);
    st_subheader "Model Confidence";
    st_markdown ("<h1 style='text-align: center;'>"
                 ++ float_str (risk_percentage probability) ++ "%</h1>");
    st_error assessment_failed_text ].

(** Elements that only the submit handler draws. *)
Definition is_result (e : element) : bool :=
  match e with
  | st_error _ | st_success _ | st_progress _ | st_warning _ | st_info _
  | st_write _ => true
  | _ => false
  end.


(** * Properties *)

(** ** Built-ins *)

Lemma index_in (l : list string) (x : string) :
  py_in x l = true ->
  exists i, index l x = inr i /\ position l x i /\ (i < Z.of_nat (List.length l))%Z.
Proof.
  unfold py_in, position.
  induction l as [|y l IH]; simpl; intros H; [discriminate|].
  destruct (String.eqb y x) eqn:E.
  - apply String.eqb_eq in E. subst y.
    exists 0%Z. simpl. repeat split; lia.
  - simpl in H. destruct (IH H) as (i & Hi & (Hpos & Hnth) & Hlt).
    exists (i + 1)%Z. rewrite Hi. repeat split; try lia.
    replace (Z.to_nat (i + 1)) with (S (Z.to_nat i)) by lia.
    exact Hnth.
Qed.

Lemma index_not_in (l : list string) (x : string) :
  py_in x l = false ->
  index l x = inl (ValueError (py_repr x ++ " is not in list")).
Proof.
  unfold py_in.
  induction l as [|y l IH]; simpl; intros H; [reflexivity|].
  apply orb_false_elim in H. destruct H as [E H].
  rewrite E, (IH H). reflexivity.
Qed.

Lemma py_in_yes_no (x : string) :
  py_in x yes_no = true -> x = "No" \/ x = "Yes".
Proof.
  unfold py_in, yes_no. cbn [existsb]. intros H.
  destruct (String.eqb_spec "No" x); [left; congruence|].
  destruct (String.eqb_spec "Yes" x); [right; congruence|].
  discriminate.
Qed.

(** ** Assembly and scaling of in-domain inputs *)

Lemma in_domain_facts (p : PatientInput) :
  in_domain p = true -> domain_facts p.
Proof.
  unfold in_domain. intros H.
  repeat (apply andb_prop in H; destruct H as [H ?]).
  repeat match goal with
         | h : Qle_bool _ _ = true |- _ => apply Qle_bool_iff in h
         | h : (_ <=? _)%Z = true |- _ => apply Z.leb_le in h
         | h : py_in _ yes_no = true |- _ => apply py_in_yes_no in h
         end.
  constructor; auto.
  match goal with
  | h : py_in (sex p) _ = true |- _ => unfold py_in in h; cbn [existsb] in h
  end.
  destruct (String.eqb_spec "Female" (sex p)); [left; congruence|].
  destruct (String.eqb_spec "Male" (sex p)); [right; congruence|].
  discriminate.
Qed.

Lemma input_df_in_domain (p : PatientInput) :
  in_domain p = true ->
  exists a d g,
    (position age_categories (age_category p) a /\ a <= 12)%Z
    /\ (position diabetic_options (diabetic p) d /\ d <= 3)%Z
    /\ (position gen_health_options (gen_health p) g /\ g <= 4)%Z
    /\ forall out, input_df p out = (inr (row p a d g), out).
Proof.
  intros H. apply in_domain_facts in H.
  destruct (index_in _ _ (dom_age p H)) as (a & Ha & Pa & La).
  destruct (index_in _ _ (dom_diabetic p H)) as (d & Hd & Pd & Ld).
  destruct (index_in _ _ (dom_gen_health p H)) as (g & Hg & Pg & Lg).
  simpl in La, Ld, Lg.
  exists a, d, g.
  split; [split; [exact Pa | lia]|].
  split; [split; [exact Pd | lia]|].
  split; [split; [exact Pg | lia]|].
  intros out. unfold input_df, bind, lift. rewrite Ha, Hd, Hg. reflexivity.
Qed.

Lemma scale_row (scaler : ScalingParameters) (p : PatientInput) (a d g : Z)
  (out : list element) :
  scale scaler (row p a d g) out = (inr (scaled_row scaler p a d g), out).
Proof. reflexivity. Qed.

Lemma features_in_domain (scaler : ScalingParameters) (p : PatientInput) :
  in_domain p = true ->
  exists a d g,
    (position age_categories (age_category p) a /\ a <= 12)%Z
    /\ (position diabetic_options (diabetic p) d /\ d <= 3)%Z
    /\ (position gen_health_options (gen_health p) g /\ g <= 4)%Z
    /\ (forall out, input_df p out = (inr (row p a d g), out))
    /\ features scaler p = inr (scaled_row scaler p a d g).
Proof.
  intros H.
  destruct (input_df_in_domain p H) as (a & d & g & Pa & Pd & Pg & Hdf).
  exists a, d, g. do 4 (split; [assumption|]).
  unfold features, bind. rewrite Hdf, scale_row. reflexivity.
Qed.

(** ** What a successful assessment draws *)

Section Assessment.

Variable float_str : Q -> string.

Lemma show_prediction_draws (prediction : Z) (out : list element) :
  show_prediction prediction out
  = (inr tt, out ++ [verdict_element (verdict_of prediction)]).
Proof.
  unfold show_prediction, verdict_of.
  destruct (prediction =? 1)%Z; reflexivity.
Qed.

Lemma show_guidance_draws (probability : Q) (out : list element) :
  show_guidance probability out
  = (inr tt, out ++ [guidance_element (tier_of probability)]).
Proof.
  unfold show_guidance, tier_of.
  destruct (Qle_bool 0.5 probability); reflexivity.
Qed.

Lemma show_risk_factors_draws (flags : list string) (out : list element) :
  show_risk_factors flags out = (inr tt, out ++ [st_write (summary_text flags)]).
Proof. destruct flags; reflexivity. Qed.

Lemma progress_draws (value : Q) (out : list element) :
  0 <= value <= 1 ->
  progress value out = (inr tt, out ++ [st_progress value]).
Proof.
  intros [H0 H1]. unfold progress, check_float_between.
  apply Qle_bool_iff in H0. apply Qle_bool_iff in H1.
  rewrite H0, H1. reflexivity.
Qed.

(** For an in-domain input and a probability between 0 and 1 the handler
    draws the ten result elements and nothing else. *)
Lemma on_submit_draws (model : Classifier) (scaler : ScalingParameters)
  (p : PatientInput) (df : DataFrame) (out : list element) :
  in_domain p = true ->
  features scaler p = inr df ->
  0 <= predict_proba model df <= 1 ->
  on_submit float_str model scaler p out
  = (inr tt,
     out ++ assessment_elements float_str p (predict model df) (predict_proba model df)).
Proof.
  intros Hdom Hfeat Hprob.
  destruct (features_in_domain scaler p Hdom) as (a & d & g & _ & _ & _ & Hdf & Hf).
  rewrite Hf in Hfeat. injection Hfeat as <-.
  unfold on_submit, try_except, assessment, bind.
  rewrite Hdf, scale_row.
  cbn [emit].
  rewrite show_prediction_draws. cbn [emit].
  rewrite (progress_draws _ _ Hprob). cbn [emit].
  rewrite show_guidance_draws. cbn [emit].
  rewrite show_risk_factors_draws.
  unfold assessment_elements.
  repeat rewrite <- app_assoc. reflexivity.
Qed.

End Assessment.

(** ** End-to-end results *)

(** C1.  For every in-domain input, when the classifier answers class 1
    with probability 0.82 on the scaled frame, the handler shows the
    verdict "At Risk of Heart Disease" (the verdict [AtRisk]), the risk
    percentage 82.0 (the rounding of 0.82 * 100 to one decimal), the
    progress bar at 0.82, the elevated guidance (the tier [Elevated]) with
    its text word for word -- cardiology consultation within 2 weeks, ECG
    and lipid profile tests, education materials, follow-up in 1 month --
    and the risk-factor summary, in this order and with nothing else. *)
Theorem end_to_end_at_risk_82 (float_str : Q -> string) (model : Classifier)
  (scaler : ScalingParameters) (p : PatientInput) (df : DataFrame) :
  in_domain p = true ->
  features scaler p = inr df ->
  predict model df = 1%Z ->
  predict_proba model df = 0.82 ->
  risk_percentage (predict_proba model df) = 82
  /\ verdict_element AtRisk = st_error "**At Risk of Heart Disease**"
  /\ guidance_element Elevated
     = st_warning "
            **This patient shows elevated risk for heart disease.**
            Recommended actions:
            - Schedule cardiology consultation within 2 weeks
            - Order ECG and lipid profile tests
            - Provide heart health education materials
            - Schedule follow-up appointment in 1 month
            "
  /\ on_submit float_str model scaler p []
     = (inr tt,
        [ st_header "Risk Assessment Results";
          st_subheader "Clinical Prediction";
          st_error "**At Risk of Heart Disease**";
          st_subheader "Model Confidence";
          st_markdown ("<h1 style='text-align: center;'>" ++ float_str 82 ++ "%</h1>");
          st_progress 0.82;
          st_subheader "Clinical Guidance";
          st_warning "
            **This patient shows elevated risk for heart disease.**
            Recommended actions:
            - Schedule cardiology consultation within 2 weeks
            - Order ECG and lipid profile tests
            - Provide heart health education materials
            - Schedule follow-up appointment in 1 month
            ";
          st_subheader "Key Risk Factors";
          st_write (summary_text (risk_factors float_str p)) ]).
Proof.
  intros Hdom Hfeat Hclass Hprob.
  split; [rewrite Hprob; reflexivity|].
  split; [reflexivity|]. split; [reflexivity|].
  rewrite (on_submit_draws float_str model scaler p df []); try assumption.
  - rewrite Hclass, Hprob. reflexivity.
  - rewrite Hprob. split; discriminate.
Qed.

Lemma end_to_end_at_risk_82_witness :
  on_submit tenths_str (stub 1 0.82) test_scaler patient_all_flags []
  = (inr tt,
     [ st_header "Risk Assessment Results";
       st_subheader "Clinical Prediction";
       st_error "**At Risk of Heart Disease**";
       st_subheader "Model Confidence";
       st_markdown "<h1 style='text-align: center;'>82.0%</h1>";
       st_progress 0.82;
       st_subheader "Clinical Guidance";
       st_warning "
            **This patient shows elevated risk for heart disease.**
            Recommended actions:
            - Schedule cardiology consultation within 2 weeks
            - Order ECG and lipid profile tests
            - Provide heart health education materials
            - Schedule follow-up appointment in 1 month
            ";
       st_subheader "Key Risk Factors";
       st_write "Identified risk factors: Smoking, Obesity (BMI: 32.0), Frequent physical health issues, Age (60-64), Diabetes" ]).
Proof.
  apply (end_to_end_at_risk_82 tenths_str (stub 1 0.82) test_scaler patient_all_flags
           (scaled_row test_scaler patient_all_flags 8 1 2)); reflexivity.
Defined.

(** C2.  The verdict follows the classifier's class label alone (at risk
    exactly when the label is 1) and the guidance tier follows the
    probability alone (elevated exactly when it is at least 0.5, low
    otherwise); with label 0 and probability 0.5 the handler shows "not at
    risk" together with the elevated guidance. *)
Theorem verdict_and_guidance_independent (float_str : Q -> string)
  (model : Classifier) (scaler : ScalingParameters) (p : PatientInput)
  (df : DataFrame) :
  in_domain p = true ->
  features scaler p = inr df ->
  0 <= predict_proba model df <= 1 ->
  let out := snd (on_submit float_str model scaler p []) in
  (In (verdict_element AtRisk) out <-> predict model df = 1%Z)
  /\ (In (verdict_element NotAtRisk) out <-> predict model df <> 1%Z)
  /\ (In (guidance_element Elevated) out <-> 0.5 <= predict_proba model df)
  /\ (In (guidance_element Low) out <-> predict_proba model df < 0.5)
  /\ (predict model df = 0%Z -> predict_proba model df == 0.5 ->
      In (verdict_element NotAtRisk) out /\ In (guidance_element Elevated) out).
Proof.
  intros Hdom Hfeat Hprob out. subst out.
  rewrite (on_submit_draws float_str model scaler p df [] Hdom Hfeat Hprob).
  unfold assessment_elements, verdict_of, tier_of.
  cbn [snd List.app].
  assert (Hq : Qle_bool 0.5 (predict_proba model df) = true
               <-> 0.5 <= predict_proba model df) by apply Qle_bool_iff.
  assert (Hlt : predict_proba model df < 0.5
                <-> ~ 0.5 <= predict_proba model df)
    by (split; [apply Qlt_not_le | apply Qnot_le_lt]).
  assert (Hhalf : predict_proba model df == 0.5 -> 0.5 <= predict_proba model df)
    by (intros ->; apply Qle_refl).
  destruct (Z.eqb_spec (predict model df) 1) as [Hc|Hc];
    destruct (Qle_bool 0.5 (predict_proba model df));
    cbn [In verdict_element guidance_element];
    repeat split; intros;
    repeat match goal with
           | h : _ \/ _ |- _ => destruct h as [h|h]
           | h : False |- _ => destruct h
           end;
    try discriminate; try tauto; try lia;
    try (exfalso; intuition congruence);
    try (apply Hlt; intros Hle; apply Hq in Hle; discriminate).
Qed.

Lemma verdict_and_guidance_independent_witness :
  let out := snd (on_submit tenths_str (stub 0 0.5) test_scaler patient_no_flags []) in
  In (st_success "**Not At Risk of Heart Disease**") out
  /\ In (st_warning elevated_guidance) out.
Proof.
  assert (Hprob : 0 <= 0.5 <= 1) by (split; discriminate).
  exact (proj2 (proj2 (proj2 (proj2
           (verdict_and_guidance_independent tenths_str (stub 0 0.5) test_scaler
              patient_no_flags (scaled_row test_scaler patient_no_flags 2 0 4)
              eq_refl eq_refl Hprob))))
           eq_refl (Qeq_refl 0.5)).
Defined.

(** ** Risk-factor flags *)

Lemma py_in_In (x : string) (l : list string) :
  py_in x l = true <-> In x l.
Proof.
  unfold py_in. rewrite existsb_exists. split.
  - intros (y & Hy & E). apply String.eqb_eq in E. now subst.
  - intros H. exists x. split; [assumption | apply String.eqb_refl].
Qed.

Lemma risk_factors_applicable (float_str : Q -> string) (p : PatientInput) :
  risk_factors float_str p = applicable_flags float_str p.
Proof.
  unfold risk_factors, applicable_flags, flag_rules.
  destruct (smoking p =? "Yes")%string, (Qle_bool 30 (bmi p)),
    (15 <=? physical_health p)%Z,
    (py_in (age_category p)
       ["55-59"; "60-64"; "65-69"; "70-74"; "75-79"; "80 or older"]),
    (diabetic p =? "No")%string; reflexivity.
Qed.

(** C3.  For every in-domain input the list of risk factors holds exactly
    the flags of the rules that apply, in rule order (smoking; obesity with
    the BMI as given; frequent physical health issues; age with the bracket
    as given, for the six brackets from 55-59 up to the last one,
    "80 or older"; diabetes), and what is drawn under "Key Risk Factors" is
    the flags joined by commas, or the sentence "No major risk factors
    identified" when no rule applies, which is the case exactly when all
    five conditions fail. *)
Theorem risk_factor_flags (float_str : Q -> string) (model : Classifier)
  (scaler : ScalingParameters) (p : PatientInput) (df : DataFrame) :
  in_domain p = true ->
  features scaler p = inr df ->
  0 <= predict_proba model df <= 1 ->
  risk_factors float_str p = applicable_flags float_str p
  /\ risk_summary (snd (on_submit float_str model scaler p []))
     = [ st_write
           match applicable_flags float_str p with
           | [] => "No major risk factors identified"
           | _ :: _ =>
               "Identified risk factors: " ++ concat ", " (applicable_flags float_str p)
           end ]
  /\ (applicable_flags float_str p = [] <->
      smoking p <> "Yes"
      /\ bmi p < 30
      /\ (physical_health p < 15)%Z
      /\ ~ In (age_category p)
             ["55-59"; "60-64"; "65-69"; "70-74"; "75-79"; "80 or older"]
      /\ diabetic p = "No").
Proof.
  intros Hdom Hfeat Hprob.
  split; [apply risk_factors_applicable|]. split.
  - rewrite (on_submit_draws float_str model scaler p df [] Hdom Hfeat Hprob).
    rewrite <- risk_factors_applicable.
    unfold assessment_elements, verdict_of, tier_of.
    destruct (predict model df =? 1)%Z, (Qle_bool 0.5 (predict_proba model df));
      reflexivity.
  - unfold applicable_flags, flag_rules.
    rewrite <- (py_in_In (age_category p)).
    destruct (String.eqb_spec (smoking p) "Yes") as [Hs|Hs];
      destruct (Qle_bool 30 (bmi p)) eqn:Hb;
      destruct (Z.leb_spec 15 (physical_health p)) as [Hp|Hp];
      destruct (py_in (age_category p)
                  ["55-59"; "60-64"; "65-69"; "70-74"; "75-79"; "80 or older"]);
      destruct (String.eqb_spec (diabetic p) "No") as [Hd|Hd];
      cbn [filter map fst snd negb];
      (split; [intros E; try discriminate E | intros (C1 & C2 & C3 & C4 & C5)]);
      try congruence; try lia.
    all: try (apply Qle_bool_iff in Hb; exfalso; revert Hb; apply Qlt_not_le;
              assumption).
    repeat split; try assumption; try discriminate.
    apply Qnot_le_lt. intros Hle. apply Qle_bool_iff in Hle. congruence.
Qed.

Lemma risk_factor_flags_witness :
  risk_summary (snd (on_submit tenths_str (stub 1 0.82) test_scaler patient_all_flags []))
  = [ st_write "Identified risk factors: Smoking, Obesity (BMI: 32.0), Frequent physical health issues, Age (60-64), Diabetes" ]
  /\ risk_summary (snd (on_submit tenths_str (stub 0 0.12) test_scaler patient_no_flags []))
     = [ st_write "No major risk factors identified" ].
Proof.
  assert (H1 : 0 <= 0.82 <= 1) by (split; discriminate).
  assert (H2 : 0 <= 0.12 <= 1) by (split; discriminate).
  split.
  - exact (proj1 (proj2
             (risk_factor_flags tenths_str (stub 1 0.82) test_scaler patient_all_flags
                (scaled_row test_scaler patient_all_flags 8 1 2) eq_refl eq_refl H1))).
  - exact (proj1 (proj2
             (risk_factor_flags tenths_str (stub 0 0.12) test_scaler patient_no_flags
                (scaled_row test_scaler patient_no_flags 2 0 4) eq_refl eq_refl H2))).
Defined.

(** ** The feature vector *)

Ltac yes_no_slot H :=
  eexists; split; [reflexivity|];
  destruct H as [-> | ->]; [right | left]; split; reflexivity.

(** C4.  For every in-domain input, assembly succeeds without drawing
    anything and yields sixteen columns in the canonical order; BMI,
    PhysicalHealth, MentalHealth and SleepTime hold the raw values; the
    yes/no columns hold 1 for "Yes" and 0 for "No", Sex holds 1 for "Male"
    and 0 for "Female"; AgeCategory, Diabetic and GenHealth hold the
    zero-based position of the answer in its label list. *)
Theorem assemble_canonical (p : PatientInput) :
  in_domain p = true ->
  exists df,
    (forall out, input_df p out = (inr df, out))
    /\ columns df = feature_names
    /\ List.length df = 16%nat
    /\ slot df "BMI" (VFloat (bmi p))
    /\ coded df "Smoking" (yes_no_code (smoking p))
    /\ coded df "AlcoholDrinking" (yes_no_code (alcohol p))
    /\ coded df "Stroke" (yes_no_code (stroke p))
    /\ slot df "PhysicalHealth" (VInt (physical_health p))
    /\ slot df "MentalHealth" (VInt (mental_health p))
    /\ coded df "DiffWalking" (yes_no_code (diff_walking p))
    /\ coded df "Sex" (sex_code (sex p))
    /\ coded df "AgeCategory" (position age_categories (age_category p))
    /\ coded df "Diabetic" (position diabetic_options (diabetic p))
    /\ coded df "PhysicalActivity" (yes_no_code (physical_activity p))
    /\ coded df "GenHealth" (position gen_health_options (gen_health p))
    /\ slot df "SleepTime" (VInt (sleep_time p))
    /\ coded df "Asthma" (yes_no_code (asthma p))
    /\ coded df "KidneyDisease" (yes_no_code (kidney_disease p))
    /\ coded df "SkinCancer" (yes_no_code (skin_cancer p)).
Proof.
  intros Hdom.
  destruct (input_df_in_domain p Hdom) as (a & d & g & [Pa _] & [Pd _] & [Pg _] & Hdf).
  apply in_domain_facts in Hdom. destruct Hdom.
  exists (row p a d g).
  split; [exact Hdf|].
  do 3 (split; [reflexivity|]).
  split; [yes_no_slot dom_smoking0|].
  split; [yes_no_slot dom_alcohol0|].
  split; [yes_no_slot dom_stroke0|].
  do 2 (split; [reflexivity|]).
  split; [yes_no_slot dom_diff_walking0|].
  split; [yes_no_slot dom_sex0|].
  split; [exists a; split; [reflexivity | exact Pa]|].
  split; [exists d; split; [reflexivity | exact Pd]|].
  split; [yes_no_slot dom_physical_activity0|].
  split; [exists g; split; [reflexivity | exact Pg]|].
  split; [reflexivity|].
  split; [yes_no_slot dom_asthma0|].
  split; [yes_no_slot dom_kidney_disease0|].
  yes_no_slot dom_skin_cancer0.
Qed.

Lemma assemble_canonical_witness :
  exists df,
    (forall out, input_df patient_all_flags out = (inr df, out))
    /\ columns df = feature_names
    /\ slot df "Sex" (VInt 1)
    /\ slot df "AgeCategory" (VInt 8)
    /\ slot df "GenHealth" (VInt 2).
Proof.
  destruct (assemble_canonical patient_all_flags eq_refl)
    as (df & Hdf & Hcols & _).
  exists df. split; [exact Hdf|]. split; [exact Hcols|].
  pose proof (Hdf []) as E. injection E as <-.
  repeat split.
Defined.

Lemma binary_cell (df : DataFrame) (name : string) (b : bool) :
  df_get df name = inr (VInt (if b then 1 else 0)) ->
  slot df name (VInt 0) \/ slot df name (VInt 1).
Proof. unfold slot. destruct b; auto. Qed.

Lemma row_in_range (p : PatientInput) (a d g : Z) :
  (0 <= a <= 12)%Z -> (0 <= d <= 3)%Z -> (0 <= g <= 4)%Z ->
  categorical_in_range (row p a d g).
Proof.
  intros Ha Hd Hg. unfold categorical_in_range, coded. split.
  - intros name Hin. unfold binary_names in Hin. cbn [In] in Hin.
    repeat (destruct Hin as [<- | Hin]; [eapply binary_cell; reflexivity|]).
    destruct Hin.
  - split; [exists a | split; [exists d | exists g]]; split; try reflexivity; assumption.
Qed.

Lemma scaled_row_in_range (scaler : ScalingParameters) (p : PatientInput) (a d g : Z) :
  (0 <= a <= 12)%Z -> (0 <= d <= 3)%Z -> (0 <= g <= 4)%Z ->
  categorical_in_range (scaled_row scaler p a d g).
Proof.
  intros Ha Hd Hg. unfold categorical_in_range, coded. split.
  - intros name Hin. unfold binary_names in Hin. cbn [In] in Hin.
    repeat (destruct Hin as [<- | Hin]; [eapply binary_cell; reflexivity|]).
    destruct Hin.
  - split; [exists a | split; [exists d | exists g]]; split; try reflexivity; assumption.
Qed.

(** C10.  For every in-domain input, in the assembled frame handed to
    scaling and in the scaled frame handed to the classifier, the eight
    yes/no columns and Sex hold 0 or 1, AgeCategory holds an integer from 0
    to 12, Diabetic from 0 to 3 and GenHealth from 0 to 4. *)
Theorem categorical_slots_in_range (scaler : ScalingParameters) (p : PatientInput) :
  in_domain p = true ->
  exists df df',
    (forall out, input_df p out = (inr df, out))
    /\ (forall out, scale scaler df out = (inr df', out))
    /\ features scaler p = inr df'
    /\ categorical_in_range df
    /\ categorical_in_range df'.
Proof.
  intros Hdom.
  destruct (features_in_domain scaler p Hdom)
    as (a & d & g & [[Ha0 _] Ha] & [[Hd0 _] Hd] & [[Hg0 _] Hg] & Hdf & Hf).
  exists (row p a d g), (scaled_row scaler p a d g).
  split; [exact Hdf|].
  split; [intros out; apply scale_row|].
  split; [exact Hf|].
  split; [apply row_in_range | apply scaled_row_in_range]; lia.
Qed.

Lemma categorical_slots_in_range_witness :
  exists df',
    features test_scaler patient_all_flags = inr df'
    /\ categorical_in_range df'.
Proof.
  destruct (categorical_slots_in_range test_scaler patient_all_flags eq_refl)
    as (df & df' & _ & _ & Hf & _ & Hr).
  exists df'. split; assumption.
Defined.

(** ** Scaling *)








(** ** The risk percentage *)


(** ** Start-up *)

Lemma load_artifacts_fails (files : Artifacts) (msg : string) (out : list element) :
  load_failure files = Some msg ->
  load_artifacts files out
  = (inl StopException, out ++ [st_error ("Error loading model: " ++ msg)]).
Proof.
  unfold load_failure, load_artifacts, try_except, bind, joblib_load.
  destruct (heart_disease_model_pkl files) as [m|model].
  - intros [= <-]. reflexivity.
  - destruct (minmax_scaler_pkl files) as [m|scaler]; [|discriminate].
    intros [= <-]. reflexivity.
Qed.

(** C8, as the code has it.  In a run of the script in which loading the
    classifier or the scaler fails, the load error is drawn and the run
    stops there: the form is not drawn and the submit handler is not
    reached, whatever the widget values are and whether or not the button
    was pressed.  This holds for such a run wherever it stands in a
    session; the other runs of the session are not affected by it. *)
Theorem load_failure_refuses_to_serve (float_str : Q -> string) (files : Artifacts)
  (msg : string) :
  load_failure files = Some msg ->
  (forall p submitted,
      app float_str files p submitted []
      = (inl StopException, [st_error ("Error loading model: " ++ msg)]))
  /\ (forall before after p submitted,
         session float_str (before ++ (files, p, submitted) :: after)
         = session float_str before
           ++ [st_error ("Error loading model: " ++ msg)]
              :: session float_str after).
Proof.
  intros Hfail.
  assert (Hrun : forall p submitted,
             app float_str files p submitted []
             = (inl StopException, [st_error ("Error loading model: " ++ msg)])).
  { intros p submitted. unfold app, bind.
    rewrite (load_artifacts_fails files msg [] Hfail). reflexivity. }
  split; [exact Hrun|].
  intros before after p submitted. unfold session.
  rewrite map_app. cbn [map fst snd]. unfold run at 2. rewrite Hrun. reflexivity.
Qed.

Lemma load_failure_refuses_to_serve_witness :
  app tenths_str files_no_model patient_all_flags true []
  = (inl StopException,
     [st_error "Error loading model: [Errno 2] No such file or directory: 'heart_disease_model.pkl'"]).
Proof.
  exact (proj1 (load_failure_refuses_to_serve tenths_str files_no_model _ eq_refl)
           patient_all_flags true).
Defined.

(** C8, as stated, fails on the code: nothing is remembered between runs.
    After a run in which the classifier file is missing, a run in which
    both artifacts load draws the page, the form and the assessment. *)
Lemma later_run_serves :
  session tenths_str
    [ (files_no_model, patient_all_flags, true);
      (files_loaded, patient_all_flags, true) ]
  = [ [st_error "Error loading model: [Errno 2] No such file or directory: 'heart_disease_model.pkl'"];
      run tenths_str files_loaded patient_all_flags false
      ++ snd (on_submit tenths_str (stub 1 0.82) test_scaler patient_all_flags []) ]
  /\ In (st_write "Identified risk factors: Smoking, Obesity (BMI: 32.0), Frequent physical health issues, Age (60-64), Diabetes")
       (run tenths_str files_loaded patient_all_flags true)
  /\ ~ refuses_ever_after tenths_str.
Proof.
  split; [reflexivity|]. split.
  - cbv. tauto.
  - intros H.
    specialize (H files_no_model patient_all_flags true
                  [(files_loaded, patient_all_flags, true)]).
    assert (Hfail : load_failure files_no_model <> None) by discriminate.
    apply H in Hfail. inversion Hfail as [|? ? _ Hlater]; subst.
    inversion Hlater as [|? ? Hserved _]; subst.
    discriminate Hserved.
Qed.

(** With both artifacts loaded a run draws the page and the form, and the
    results once the button is pressed. *)
Example loaded_run_serves :
  List.length (run tenths_str files_loaded patient_all_flags false) = 26%nat
  /\ run tenths_str files_loaded patient_all_flags true
     = run tenths_str files_loaded patient_all_flags false
       ++ snd (on_submit tenths_str (stub 1 0.82) test_scaler patient_all_flags []).
Proof. split; reflexivity. Qed.

(** ** The flags and the classifier *)

(** C9.  For an in-domain input, what is drawn under "Key Risk Factors" is
    the summary of [risk_factors], a function of the widget values alone:
    two assessments of the same input with different classifiers and
    scalers draw the same summary, and the obesity flag is present exactly
    when the BMI as entered, not the scaled BMI, is at least 30. *)
Theorem risk_flags_from_raw_input (float_str : Q -> string)
  (model1 model2 : Classifier) (scaler1 scaler2 : ScalingParameters)
  (p : PatientInput) (df1 df2 : DataFrame) :
  in_domain p = true ->
  features scaler1 p = inr df1 ->
  features scaler2 p = inr df2 ->
  0 <= predict_proba model1 df1 <= 1 ->
  0 <= predict_proba model2 df2 <= 1 ->
  risk_summary (snd (on_submit float_str model1 scaler1 p []))
  = risk_summary (snd (on_submit float_str model2 scaler2 p []))
  /\ risk_summary (snd (on_submit float_str model1 scaler1 p []))
     = [st_write (summary_text (risk_factors float_str p))]
  /\ (In ("Obesity (BMI: " ++ float_str (bmi p) ++ ")")%string
         (risk_factors float_str p)
      <-> 30 <= bmi p).
Proof.
  intros Hdom Hf1 Hf2 Hp1 Hp2.
  assert (Hsum : forall model scaler df,
             features scaler p = inr df ->
             0 <= predict_proba model df <= 1 ->
             risk_summary (snd (on_submit float_str model scaler p []))
             = [st_write (summary_text (risk_factors float_str p))]).
  { intros model scaler df Hf Hp.
    rewrite (on_submit_draws float_str model scaler p df [] Hdom Hf Hp).
    unfold assessment_elements, verdict_of, tier_of.
    destruct (predict model df =? 1)%Z, (Qle_bool 0.5 (predict_proba model df));
      reflexivity. }
  split; [|split].
  - rewrite (Hsum model1 scaler1 df1 Hf1 Hp1), (Hsum model2 scaler2 df2 Hf2 Hp2).
    reflexivity.
  - exact (Hsum model1 scaler1 df1 Hf1 Hp1).
  - rewrite <- Qle_bool_iff. unfold risk_factors.
    destruct (smoking p =? "Yes")%string, (Qle_bool 30 (bmi p)),
      (15 <=? physical_health p)%Z,
      (py_in (age_category p)
         ["55-59"; "60-64"; "65-69"; "70-74"; "75-79"; "80 or older"]),
      (negb (diabetic p =? "No")%string);
      cbn [List.app In String.append];
      (split; [intros H | intros H; try discriminate H; tauto]);
      repeat match goal with
             | h : _ \/ _ |- _ => destruct h as [h|h]
             | h : False |- _ => destruct h
             end;
      try reflexivity; discriminate.
Qed.

Lemma risk_flags_from_raw_input_witness :
  features test_scaler patient_all_flags
  = inr (scaled_row test_scaler patient_all_flags 8 1 2)
  /\ slot (scaled_row test_scaler patient_all_flags 8 1 2) "BMI"
       (VFloat ((32.0 - 12) / (95 - 12)))
  /\ risk_summary (snd (on_submit tenths_str (stub 1 0.82) test_scaler patient_all_flags []))
     = risk_summary (snd (on_submit tenths_str (stub 0 0.12) unit_scaler patient_all_flags []))
  /\ In "Obesity (BMI: 32.0)" (risk_factors tenths_str patient_all_flags).
Proof.
  assert (H1 : 0 <= 0.82 <= 1) by (split; discriminate).
  assert (H2 : 0 <= 0.12 <= 1) by (split; discriminate).
  pose proof (risk_flags_from_raw_input tenths_str (stub 1 0.82) (stub 0 0.12)
                test_scaler unit_scaler patient_all_flags
                (scaled_row test_scaler patient_all_flags 8 1 2)
                (scaled_row unit_scaler patient_all_flags 8 1 2)
                eq_refl eq_refl eq_refl H1 H2) as (Hsame & _ & Hbmi).
  split; [reflexivity|]. split; [reflexivity|]. split; [exact Hsame|].
  apply Hbmi. discriminate.
Defined.

(** * Further properties of the script *)

(** ** When assembly fails *)

Lemma input_df_raises (p : PatientInput) (field value : string) (out : list element) :
  unknown_category p = Some (field, value) ->
  input_df p out = (inl (ValueError (py_repr value ++ " is not in list")), out).
Proof.
  unfold unknown_category, input_df, bind, lift. intros H.
  destruct (py_in (age_category p) age_categories) eqn:Ea; cbn [negb] in H.
  - destruct (index_in _ _ Ea) as (a & -> & _).
    destruct (py_in (diabetic p) diabetic_options) eqn:Ed; cbn [negb] in H.
    + destruct (index_in _ _ Ed) as (d & -> & _).
      destruct (py_in (gen_health p) gen_health_options) eqn:Eg; cbn [negb] in H;
        [discriminate|].
      injection H as _ <-. rewrite (index_not_in _ _ Eg). reflexivity.
    + injection H as _ <-. rewrite (index_not_in _ _ Ed). reflexivity.
  - injection H as _ <-. rewrite (index_not_in _ _ Ea). reflexivity.
Qed.

Lemma unknown_category_none (p : PatientInput) :
  unknown_category p = None <->
  In (age_category p) age_categories
  /\ In (diabetic p) diabetic_options
  /\ In (gen_health p) gen_health_options.
Proof.
  unfold unknown_category. rewrite <- !py_in_In.
  destruct (py_in (age_category p) age_categories),
    (py_in (diabetic p) diabetic_options),
    (py_in (gen_health p) gen_health_options); cbn [negb];
    split; intros H; try discriminate H; try tauto;
    destruct H as (? & ? & ?); discriminate.
Qed.

Lemma input_df_known (p : PatientInput) :
  unknown_category p = None ->
  exists a d g,
    position age_categories (age_category p) a
    /\ position diabetic_options (diabetic p) d
    /\ position gen_health_options (gen_health p) g
    /\ forall out, input_df p out = (inr (row p a d g), out).
Proof.
  intros H. apply unknown_category_none in H. destruct H as (Ha & Hd & Hg).
  apply py_in_In in Ha, Hd, Hg.
  destruct (index_in _ _ Ha) as (a & Ia & Pa & _).
  destruct (index_in _ _ Hd) as (d & Id & Pd & _).
  destruct (index_in _ _ Hg) as (g & Ig & Pg & _).
  exists a, d, g. do 3 (split; [assumption|]).
  intros out. unfold input_df, bind, lift. rewrite Ia, Id, Ig. reflexivity.
Qed.

(** X1.  Assembly validates the three list-encoded answers and nothing
    else: it yields the sixteen-column frame exactly when the age bracket,
    the diabetic status and the general-health rating are in their lists,
    whatever the other thirteen answers are, and otherwise raises
    [ValueError] without drawing anything. *)
Theorem assembly_succeeds_iff_categories_known (p : PatientInput) (out : list element) :
  ((exists df, input_df p out = (inr df, out) /\ columns df = feature_names)
   <-> In (age_category p) age_categories
       /\ In (diabetic p) diabetic_options
       /\ In (gen_health p) gen_health_options)
  /\ ((exists msg, input_df p out = (inl (ValueError msg), out))
      <-> ~ (In (age_category p) age_categories
             /\ In (diabetic p) diabetic_options
             /\ In (gen_health p) gen_health_options)).
Proof.
  rewrite <- unknown_category_none.
  destruct (unknown_category p) as [[field value]|] eqn:E.
  - pose proof (input_df_raises p field value out E) as Hr.
    split; split.
    + intros (df & Hdf & _). rewrite Hr in Hdf. discriminate Hdf.
    + discriminate.
    + discriminate.
    + intros _. eexists. exact Hr.
  - destruct (input_df_known p E) as (a & d & g & _ & _ & _ & Hdf).
    split; split.
    + reflexivity.
    + intros _. exists (row p a d g). split; [apply Hdf | reflexivity].
    + intros (msg & Hm). rewrite Hdf in Hm. discriminate Hm.
    + intros H. now elim H.
Qed.

(** ** What the handler draws in every case *)

Lemma on_submit_unknown (float_str : Q -> string) (model : Classifier)
  (scaler : ScalingParameters) (p : PatientInput) (fv : string * string)
  (out : list element) :
  unknown_category p = Some fv ->
  features scaler p = inl (ValueError (py_repr (snd fv) ++ " is not in list"))
  /\ on_submit float_str model scaler p out
     = (inr tt, out ++ [st_error assessment_failed_text]).
Proof.
  destruct fv as [field value]. intros H. split.
  - unfold features, bind. rewrite (input_df_raises p field value [] H). reflexivity.
  - unfold on_submit, try_except, assessment, bind.
    rewrite (input_df_raises p field value out H). reflexivity.
Qed.

Lemma on_submit_known (float_str : Q -> string) (model : Classifier)
  (scaler : ScalingParameters) (p : PatientInput) :
  unknown_category p = None ->
  exists df,
    features scaler p = inr df
    /\ forall out,
        on_submit float_str model scaler p out
        = (inr tt,
           out ++ if probability_ok (predict_proba model df)
                  then assessment_elements float_str p (predict model df)
                         (predict_proba model df)
                  else interrupted_elements float_str (predict model df)
                         (predict_proba model df)).
Proof.
  intros H. destruct (input_df_known p H) as (a & d & g & _ & _ & _ & Hdf).
  exists (scaled_row scaler p a d g). split.
  - unfold features, bind. rewrite Hdf, scale_row. reflexivity.
  - intros out. unfold on_submit, try_except, assessment, bind.
    rewrite Hdf, scale_row. cbn [emit].
    rewrite show_prediction_draws. cbn [emit].
    unfold progress, probability_ok.
    destruct (check_float_between (predict_proba model (scaled_row scaler p a d g))).
    + cbn [emit]. rewrite show_guidance_draws. cbn [emit].
      rewrite show_risk_factors_draws. unfold assessment_elements.
      repeat rewrite <- app_assoc. reflexivity.
    + cbn [raise is_Exception]. unfold interrupted_elements, emit.
      repeat rewrite <- app_assoc. reflexivity.
Qed.

Lemma on_submit_appends (float_str : Q -> string) (model : Classifier)
  (scaler : ScalingParameters) (p : PatientInput) :
  exists drawn, forall out,
    on_submit float_str model scaler p out = (inr tt, out ++ drawn).
Proof.
  destruct (unknown_category p) as [fv|] eqn:E.
  - exists [st_error assessment_failed_text]. intros out.
    apply (on_submit_unknown float_str model scaler p fv out E).
  - destruct (on_submit_known float_str model scaler p E) as (df & _ & H).
    eexists. intros out. apply H.
Qed.

(** X2.  The submit handler never lets an exception escape and never
    removes or changes what is already on the page: for every input,
    classifier and scaler it returns normally, having appended to the page
    what it draws on an empty one. *)
Theorem on_submit_never_raises (float_str : Q -> string) (model : Classifier)
  (scaler : ScalingParameters) (p : PatientInput) (out : list element) :
  on_submit float_str model scaler p out
  = (inr tt, out ++ snd (on_submit float_str model scaler p [])).
Proof.
  destruct (on_submit_appends float_str model scaler p) as [drawn H].
  rewrite (H out), (H []). reflexivity.
Qed.

Lemma Qle_bool_false (a b : Q) : b < a -> Qle_bool a b = false.
Proof.
  intros H. destruct (Qle_bool a b) eqn:E; [|reflexivity].
  apply Qle_bool_iff in E. exfalso. apply (Qlt_not_le _ _ H E).
Qed.

Lemma isclose_false (v b : Q) :
  (1 # 1000000000) * Qabs v < Qabs (v - b) ->
  (1 # 1000000000) * Qabs b < Qabs (v - b) ->
  (1 # 1000000000) < Qabs (v - b) ->
  isclose v b = false.
Proof.
  intros Hv Hb Hc. unfold isclose. apply Qle_bool_false.
  apply Q.max_lub_lt; [|exact Hc].
  destruct (Q.max_spec (Qabs v) (Qabs b)) as [[_ E]|[_ E]]; rewrite E; assumption.
Qed.

Lemma check_float_between_outside (v : Q) :
  v < - (1 # 1000000) \/ 1 + (1 # 1000000) < v ->
  check_float_between v = false.
Proof.
  intros H. unfold check_float_between.
  assert (H1 : Qle_bool 0 v && Qle_bool v 1 = false).
  { destruct H as [H|H].
    - rewrite (Qle_bool_false 0 v) by lra. reflexivity.
    - rewrite (Qle_bool_false v 1) by lra. apply Bool.andb_false_r. }
  rewrite H1. cbn [orb].
  rewrite (isclose_false v 0), (isclose_false v 1); [reflexivity | | | | | |].
  all: destruct H as [H|H].
  all: try (rewrite (Qabs_neg v) by lra).
  all: try (rewrite (Qabs_pos v) by lra).
  all: try (rewrite (Qabs_neg (v - 1)) by lra).
  all: try (rewrite (Qabs_pos (v - 1)) by lra).
  all: try (rewrite (Qabs_neg (v - 0)) by lra).
  all: try (rewrite (Qabs_pos (v - 0)) by lra).
  all: try (change (Qabs 1) with 1); try (change (Qabs 0) with 0).
  all: lra.
Qed.

(** X3.  When the three list-encoded answers are known and the classifier's
    probability is outside [0, 1] by more than a millionth (well beyond
    the tolerance of [st.progress]), the handler has already drawn the
    verdict and the confidence when [st.progress] raises: it then draws
    the failure sentence after them, and neither guidance nor risk
    factors. *)
Theorem probability_out_of_range_interrupts (float_str : Q -> string)
  (model : Classifier) (scaler : ScalingParameters) (p : PatientInput)
  (df : DataFrame) :
  unknown_category p = None ->
  features scaler p = inr df ->
  predict_proba model df < - (1 # 1000000)
  \/ 1 + (1 # 1000000) < predict_proba model df ->
  on_submit float_str model scaler p []
  = (inr tt,
     [ st_header "Risk Assessment Results";
       st_subheader "Clinical Prediction";
       verdict_element (verdict_of (predict model df));
       st_subheader "Model Confidence";
       st_markdown ("<h1 style='text-align: center;'>"
                    ++ float_str (risk_percentage (predict_proba model df))
                    ++ "%</h1>");
       st_error "Assessment failed: Please check all fields are complete" ]).
Proof.
  intros Hknown Hf Hbad.
  destruct (on_submit_known float_str model scaler p Hknown) as (df' & Hf' & H).
  rewrite Hf in Hf'. injection Hf' as <-.
  rewrite (H []). unfold probability_ok.
  rewrite (check_float_between_outside _ Hbad). reflexivity.
Qed.

Lemma probability_out_of_range_interrupts_witness :
  on_submit tenths_str (stub 1 1.5) test_scaler patient_no_flags []
  = (inr tt,
     [ st_header "Risk Assessment Results";
       st_subheader "Clinical Prediction";
       st_error "**At Risk of Heart Disease**";
       st_subheader "Model Confidence";
       st_markdown "<h1 style='text-align: center;'>150.0%</h1>";
       st_error "Assessment failed: Please check all fields are complete" ]).
Proof.
  apply (probability_out_of_range_interrupts tenths_str (stub 1 1.5) test_scaler
           patient_no_flags (scaled_row test_scaler patient_no_flags 2 0 4));
    try reflexivity.
  right. reflexivity.
Defined.

(** X4.  Whatever the input and the artifacts, the handler draws either the
    failure sentence or one guidance text, never both and never neither;
    the "Key Risk Factors" heading is drawn exactly when a guidance text
    is. *)
Theorem failure_xor_guidance (float_str : Q -> string) (model : Classifier)
  (scaler : ScalingParameters) (p : PatientInput) :
  let out := snd (on_submit float_str model scaler p []) in
  (In (st_error assessment_failed_text) out
   <-> ~ exists t, In (guidance_element t) out)
  /\ ((exists t, In (guidance_element t) out)
      <-> In (st_subheader "Key Risk Factors") out).
Proof.
  intros out. subst out.
  destruct (unknown_category p) as [fv|] eqn:E.
  - destruct (on_submit_unknown float_str model scaler p fv [] E) as [_ ->].
    cbn [snd List.app In]. split; split.
    + intros _ [[|] [H|[]]]; discriminate H.
    + intros _. left. reflexivity.
    + intros [[|] [H|[]]]; discriminate H.
    + intros [H|[]]. discriminate H.
  - destruct (on_submit_known float_str model scaler p E) as (df & _ & H).
    rewrite (H []). cbn [snd List.app].
    destruct (probability_ok (predict_proba model df)).
    + unfold assessment_elements, verdict_of, tier_of.
      destruct (predict model df =? 1)%Z, (Qle_bool 0.5 (predict_proba model df));
        cbn [In verdict_element guidance_element]; split; split;
        try (intros H'; exfalso;
             repeat match goal with
                    | h : _ \/ _ |- _ => destruct h as [h|h]
                    | h : False |- _ => destruct h
                    end; discriminate);
        try (intros _; tauto);
        try (intros _; (exists Elevated + exists Low); cbn [In guidance_element];
             tauto);
        try (intros H'; elim H'; (exists Elevated + exists Low);
             cbn [In guidance_element]; tauto).
    + unfold interrupted_elements, verdict_of.
      destruct (predict model df =? 1)%Z;
        cbn [In verdict_element]; split; split;
        try (intros _; tauto);
        try (intros _ [[|] H']; cbn [In guidance_element] in H';
             repeat match goal with
                    | h : _ \/ _ |- _ => destruct h as [h|h]
                    | h : False |- _ => destruct h
                    end; discriminate);
        try (intros [[|] H']; cbn [In guidance_element] in H';
             repeat match goal with
                    | h : _ \/ _ |- _ => destruct h as [h|h]
                    | h : False |- _ => destruct h
                    end; discriminate);
        try (intros H';
             repeat match goal with
                    | h : _ \/ _ |- _ => destruct h as [h|h]
                    | h : False |- _ => destruct h
                    end; discriminate).
Qed.

(** ** Unknown categories *)





(** ** A run with both artifacts loaded *)

(** X5.  When both artifacts load, a run without a submission draws the
    same twenty-six page and form elements whatever the widget values are,
    none of them a result element; a run with a submission draws that page
    followed by what the handler draws. *)
Theorem run_draws_page_then_results (float_str : Q -> string) (files : Artifacts)
  (model : Classifier) (scaler : ScalingParameters) :
  heart_disease_model_pkl files = inr model ->
  minmax_scaler_pkl files = inr scaler ->
  exists page,
    List.length page = 26%nat
    /\ forallb (fun e => negb (is_result e)) page = true
    /\ (forall p, run float_str files p false = page)
    /\ (forall p,
           run float_str files p true
           = page ++ snd (on_submit float_str model scaler p [])).
Proof.
  intros Hm Hs. eexists. split; [|split; [|split]].
  3: { intros p. unfold run, app, load_artifacts, try_except, bind, joblib_load.
       rewrite Hm, Hs. reflexivity. }
  - reflexivity.
  - reflexivity.
  - intros p. unfold run, app, load_artifacts, try_except, bind, joblib_load.
    rewrite Hm, Hs. cbn [ret fst snd emit form bind List.app].
    destruct (on_submit_appends float_str model scaler p) as [drawn H].
    rewrite (H []). rewrite H. reflexivity.
Qed.

Lemma run_draws_page_then_results_witness :
  exists page,
    List.length page = 26%nat
    /\ run tenths_str files_loaded patient_no_flags false = page
    /\ run tenths_str files_loaded patient_all_flags true
       = page ++ snd (on_submit tenths_str (stub 1 0.82) test_scaler patient_all_flags []).
Proof.
  destruct (run_draws_page_then_results tenths_str files_loaded (stub 1 0.82)
              test_scaler eq_refl eq_refl) as (page & Hlen & _ & Hno & Hyes).
  exists page. split; [exact Hlen|]. split; [apply Hno | apply Hyes].
Defined.

(** ** The category codes *)

Lemma index_position (l : list string) (x : string) (i : Z) :
  index l x = inr i -> position l x i.
Proof.
  intros H. destruct (py_in x l) eqn:E.
  - destruct (index_in l x E) as (j & Hj & Pj & _). congruence.
  - rewrite (index_not_in l x E) in H. discriminate H.
Qed.

Lemma index_nth (l : list string) (x : string) (n : nat) :
  NoDup l -> nth_error l n = Some x -> index l x = inr (Z.of_nat n).
Proof.
  intros Hnd. revert n. induction Hnd as [|y l Hy Hnd IH]; intros n Hn.
  - destruct n; discriminate Hn.
  - destruct n as [|n]; cbn [nth_error] in Hn; cbn [index].
    + injection Hn as ->. rewrite String.eqb_refl. reflexivity.
    + destruct (String.eqb_spec y x) as [->|Hne].
      * elim Hy. eapply nth_error_In. exact Hn.
      * rewrite (IH n Hn). f_equal. lia.
Qed.

Lemma label_lists_NoDup (labels : list string) :
  In labels [age_categories; diabetic_options; gen_health_options] ->
  NoDup labels.
Proof.
  intros [<-|[<-|[<-|[]]]];
    repeat (constructor; [cbn [In]; intros H;
                          repeat (destruct H as [H|H]; [discriminate H|]);
                          destruct H|]);
    constructor.
Qed.

(** X6.  For each of the three label lists the code of an answer and its
    position determine each other: [index] returns [i] exactly when the
    answer is the label at position [i], so every position of a list is the
    code of one label and no two labels share a code. *)
Theorem label_codes_round_trip (labels : list string) (x : string) (i : Z) :
  In labels [age_categories; diabetic_options; gen_health_options] ->
  (index labels x = inr i <-> position labels x i).
Proof.
  intros Hl. split; [apply index_position|].
  intros [H0 Hn].
  rewrite (index_nth labels x (Z.to_nat i) (label_lists_NoDup labels Hl) Hn).
  f_equal. lia.
Qed.

Lemma label_codes_round_trip_witness :
  index age_categories "80 or older" = inr 12%Z
  /\ position gen_health_options "Very good" 3.
Proof.
  split.
  - apply (label_codes_round_trip age_categories "80 or older" 12).
    + cbn [In]. tauto.
    + split; [lia | reflexivity].
  - apply (label_codes_round_trip gen_health_options "Very good" 3).
    + cbn [In]. tauto.
    + reflexivity.
Defined.

(** ** Assembly loses nothing *)

Lemma position_inj (l : list string) (x y : string) (i : Z) :
  position l x i -> position l y i -> x = y.
Proof. intros [_ Hx] [_ Hy]. congruence. Qed.

Lemma two_valued_inj (one a b : string) (other : string) :
  other <> one ->
  a = other \/ a = one -> b = other \/ b = one ->
  (if a =? one then 1%Z else 0%Z) = (if b =? one then 1%Z else 0%Z) ->
  a = b.
Proof.
  intros Hne [-> | ->] [-> | ->]; try reflexivity.
  - rewrite String.eqb_refl. destruct (String.eqb_spec other one); [contradiction|].
    discriminate.
  - rewrite String.eqb_refl. destruct (String.eqb_spec other one); [contradiction|].
    discriminate.
Qed.

(** X7.  On in-domain inputs assembly is injective: two inputs that
    assemble to the same frame are the same input, so every answer can be
    read back from the feature frame. *)
Theorem assembly_injective (p1 p2 : PatientInput) :
  in_domain p1 = true ->
  in_domain p2 = true ->
  input_df p1 [] = input_df p2 [] ->
  p1 = p2.
Proof.
  intros D1 D2 E.
  destruct (input_df_in_domain p1 D1) as (a1 & d1 & g1 & [Pa1 _] & [Pd1 _] & [Pg1 _] & H1).
  destruct (input_df_in_domain p2 D2) as (a2 & d2 & g2 & [Pa2 _] & [Pd2 _] & [Pg2 _] & H2).
  rewrite H1, H2 in E. unfold row in E.
  apply in_domain_facts in D1, D2. destruct D1, D2.
  injection E as Ebmi Esmoking Ealcohol Estroke Eph Emh Ediff Esex Ea Ed Epa Eg
    Esleep Easthma Ekidney Eskin.
  subst a2 d2 g2.
  pose proof (position_inj _ _ _ _ Pa1 Pa2) as Eage.
  pose proof (position_inj _ _ _ _ Pd1 Pd2) as Ediab.
  pose proof (position_inj _ _ _ _ Pg1 Pg2) as Egen.
  assert (Hyn : "No" <> "Yes") by discriminate.
  assert (Hfm : "Female" <> "Male") by discriminate.
  apply (two_valued_inj "Yes" _ _ "No" Hyn) in Esmoking, Ealcohol, Estroke, Ediff,
    Epa, Easthma, Ekidney, Eskin; try assumption.
  apply (two_valued_inj "Male" _ _ "Female" Hfm) in Esex; try assumption.
  clear - Ebmi Esmoking Ealcohol Estroke Eph Emh Ediff Esex Eage Ediab Epa Egen
            Esleep Easthma Ekidney Eskin.
  destruct p1, p2. cbn in *. subst. reflexivity.
Qed.

Lemma assembly_injective_witness :
  in_domain patient_no_flags = true /\ patient_no_flags = patient_no_flags.
Proof.
  split; [reflexivity|].
  exact (assembly_injective patient_no_flags patient_no_flags eq_refl eq_refl eq_refl).
Defined.

(** ** The flags and the feature frame *)

Lemma flag_membership (float_str : Q -> string) (p : PatientInput) :
  (In "Smoking" (risk_factors float_str p) <-> (smoking p =? "Yes") = true)
  /\ (In "Frequent physical health issues" (risk_factors float_str p)
      <-> (15 <=? physical_health p)%Z = true)
  /\ (In ("Age (" ++ age_category p ++ ")")%string (risk_factors float_str p)
      <-> py_in (age_category p)
            ["55-59"; "60-64"; "65-69"; "70-74"; "75-79"; "80 or older"] = true)
  /\ (In "Diabetes" (risk_factors float_str p) <-> (diabetic p =? "No") = false).
Proof.
  unfold risk_factors.
  destruct (smoking p =? "Yes")%string, (Qle_bool 30 (bmi p)),
    (15 <=? physical_health p)%Z,
    (py_in (age_category p)
       ["55-59"; "60-64"; "65-69"; "70-74"; "75-79"; "80 or older"]),
    (diabetic p =? "No")%string;
    cbn [negb List.app In String.append];
    repeat split; intros H; try reflexivity; try discriminate H; try tauto;
    repeat match goal with
           | h : _ \/ _ |- _ => destruct h as [h|h]
           | h : False |- _ => destruct h
           end; discriminate.
Qed.

Lemma flagged_age_position (x : string) (a : Z) :
  position age_categories x a ->
  (py_in x ["55-59"; "60-64"; "65-69"; "70-74"; "75-79"; "80 or older"] = true
   <-> (7 <= a)%Z).
Proof.
  intros [H0 Hn].
  assert (Hlt : (Z.to_nat a < List.length age_categories)%nat).
  { apply nth_error_Some. rewrite Hn. discriminate. }
  cbn [List.length age_categories] in Hlt.
  assert (Ha : a = Z.of_nat (Z.to_nat a)) by lia.
  revert Hn Ha. generalize (Z.to_nat a) Hlt. clear.
  intros n Hlt Hn ->.
  do 13 (destruct n as [|n];
         [cbn in Hn; injection Hn as <-; split; [intros H; (discriminate H || lia)
                                                | intros H; (reflexivity || lia)]|]).
  lia.
Qed.

Lemma diabetic_position (x : string) (d : Z) :
  position diabetic_options x d ->
  ((x =? "No") = false <-> d <> 0%Z).
Proof.
  intros [H0 Hn].
  assert (Hlt : (Z.to_nat d < List.length diabetic_options)%nat).
  { apply nth_error_Some. rewrite Hn. discriminate. }
  cbn [List.length diabetic_options] in Hlt.
  assert (Hd : d = Z.of_nat (Z.to_nat d)) by lia.
  revert Hn Hd. generalize (Z.to_nat d) Hlt. clear.
  intros n Hlt Hn ->.
  do 4 (destruct n as [|n];
        [cbn in Hn; injection Hn as <-; split; [intros H; (discriminate H || lia)
                                               | intros H; (reflexivity || lia)]|]).
  lia.
Qed.

(** X8.  For every in-domain input the flags agree with the assembled
    frame: the smoking flag is present exactly when the Smoking column is
    1, the physical-health flag exactly when PhysicalHealth is at least 15,
    the age flag exactly when the AgeCategory code is at least 7, and the
    diabetes flag exactly when the Diabetic code is not 0 (so also for
    "No, borderline diabetes" and "Yes (during pregnancy)"). *)
Theorem flags_agree_with_frame (float_str : Q -> string) (p : PatientInput) :
  in_domain p = true ->
  exists df,
    (forall out, input_df p out = (inr df, out))
    /\ (In "Smoking" (risk_factors float_str p) <-> slot df "Smoking" (VInt 1))
    /\ (In "Frequent physical health issues" (risk_factors float_str p)
        <-> coded df "PhysicalHealth" (fun days => 15 <= days)%Z)
    /\ (In ("Age (" ++ age_category p ++ ")")%string (risk_factors float_str p)
        <-> coded df "AgeCategory" (fun a => 7 <= a)%Z)
    /\ (In "Diabetes" (risk_factors float_str p)
        <-> coded df "Diabetic" (fun d => d <> 0)%Z).
Proof.
  intros Hdom.
  destruct (input_df_in_domain p Hdom) as (a & d & g & [Pa _] & [Pd _] & _ & Hdf).
  destruct (flag_membership float_str p) as (Hs & Hph & Hage & Hdia).
  exists (row p a d g). split; [exact Hdf|].
  rewrite Hs, Hph, Hage, Hdia.
  rewrite (flagged_age_position _ _ Pa), (diabetic_position _ _ Pd).
  unfold slot, coded. cbn [row df_get String.eqb Ascii.eqb Bool.eqb].
  split; [|split; [|split]].
  - destruct (smoking p =? "Yes")%string; split; intros H;
      try reflexivity; discriminate H.
  - rewrite Z.leb_le. split.
    + intros H. eexists. split; [reflexivity | exact H].
    + intros (c & [= <-] & H). exact H.
  - split.
    + intros H. eexists. split; [reflexivity | exact H].
    + intros (c & [= <-] & H). exact H.
  - split.
    + intros H. eexists. split; [reflexivity | exact H].
    + intros (c & [= <-] & H). exact H.
Qed.

Lemma flags_agree_with_frame_witness :
  In "Diabetes" (risk_factors tenths_str patient_all_flags)
  /\ In "Age (60-64)" (risk_factors tenths_str patient_all_flags).
Proof.
  destruct (flags_agree_with_frame tenths_str patient_all_flags eq_refl)
    as (df & Hdf & _ & _ & Hage & Hdia).
  pose proof (Hdf []) as E. injection E as <-.
  split.
  - apply Hdia. exists 1%Z. split; [reflexivity | discriminate].
  - apply Hage. exists 8%Z. split; [reflexivity | discriminate].
Defined.

(** ** The risk percentage as a function of the probability *)







(** ** What the classifier is given *)


